(** * eolearn.core.feature_types: the FeatureType enumeration

    A shallow embedding of [core/eolearn/core/feature_types.py] and the
    properties of its classification methods.

    Python objects are modelled as follows:
    - the members of the [Enum] class are the constructors of [FeatureType];
    - [str] is [string], [int] is [Z], [None] is [None : option _];
    - a [frozenset] is a [gset], a [dict] literal is a [gmap];
    - a call that may raise is a value of [result]. *)

From Stdlib Require Import ZArith.
From stdpp Require Import base decidable countable gmap sets list strings.

Open Scope string_scope.

(** ** The enumeration (lines 8-42) *)

Inductive FeatureType : Set :=
  | DATA
  | MASK
  | SCALAR
  | LABEL
  | VECTOR
  | DATA_TIMELESS
  | MASK_TIMELESS
  | SCALAR_TIMELESS
  | LABEL_TIMELESS
  | VECTOR_TIMELESS
  | META_INFO
  | BBOX
  | TIMESTAMP.

(** The [.value] attribute of a member: the right-hand sides of the
    assignments in the class body. *)
Definition value (item : FeatureType) : string :=
  match item with
  | DATA => "data"
  | MASK => "mask"
  | SCALAR => "scalar"
  | LABEL => "label"
  | VECTOR => "vector"
  | DATA_TIMELESS => "data_timeless"
  | MASK_TIMELESS => "mask_timeless"
  | SCALAR_TIMELESS => "scalar_timeless"
  | LABEL_TIMELESS => "label_timeless"
  | VECTOR_TIMELESS => "vector_timeless"
  | META_INFO => "meta_info"
  | BBOX => "bbox"
  | TIMESTAMP => "timestamp"
  end.

(** [iter(cls)]: the members in definition order. *)
Definition members : list FeatureType :=
  [DATA; MASK; SCALAR; LABEL; VECTOR; DATA_TIMELESS; MASK_TIMELESS;
   SCALAR_TIMELESS; LABEL_TIMELESS; VECTOR_TIMELESS; META_INFO; BBOX;
   TIMESTAMP].

(** Members are hashable and compared by identity, which is what
    [frozenset] and [dict] rely on. *)
#[global] Instance FeatureType_eq_dec : EqDecision FeatureType.
Proof. solve_decision. Defined.

Definition FeatureType_index (item : FeatureType) : nat :=
  match item with
  | DATA => 0
  | MASK => 1
  | SCALAR => 2
  | LABEL => 3
  | VECTOR => 4
  | DATA_TIMELESS => 5
  | MASK_TIMELESS => 6
  | SCALAR_TIMELESS => 7
  | LABEL_TIMELESS => 8
  | VECTOR_TIMELESS => 9
  | META_INFO => 10
  | BBOX => 11
  | TIMESTAMP => 12
  end.

#[global] Instance FeatureType_countable : Countable FeatureType.
Proof.
  refine (inj_countable FeatureType_index (fun n => members !! n) _).
  intros item. destruct item; reflexivity.
Defined.

(** [frozenset([...])] *)
Definition frozenset (l : list FeatureType) : gset FeatureType :=
  list_to_set l.

(** [x in s] and [x not in s] *)
Definition py_in (x : FeatureType) (s : gset FeatureType) : bool :=
  bool_decide (x ∈ s).

Definition py_not_in (x : FeatureType) (s : gset FeatureType) : bool :=
  negb (py_in x s).

(** ** Class method [has_value] (lines 44-48) *)

(** [any(value == item.value for item in cls)] *)
Definition has_value (v : string) : bool :=
  existsb (fun item => bool_decide (v = value item)) members.

(** ** Classification methods (lines 50-113) *)

Definition is_spatial (self : FeatureType) : bool :=
  py_in self (frozenset [DATA; MASK; VECTOR; DATA_TIMELESS;
                         MASK_TIMELESS; VECTOR_TIMELESS]).

Definition is_time_dependent (self : FeatureType) : bool :=
  py_in self (frozenset [DATA; MASK; SCALAR; LABEL; VECTOR]).

Definition is_discrete (self : FeatureType) : bool :=
  py_in self (frozenset [MASK; MASK_TIMELESS; LABEL; LABEL_TIMELESS]).

Definition is_vector (self : FeatureType) : bool :=
  py_in self (frozenset [VECTOR; VECTOR_TIMELESS]).

Definition has_dict (self : FeatureType) : bool :=
  py_not_in self (frozenset [TIMESTAMP; BBOX]).

Definition contains_ndarrays (self : FeatureType) : bool :=
  py_in self (frozenset [DATA; MASK; SCALAR; LABEL; DATA_TIMELESS;
                         MASK_TIMELESS; SCALAR_TIMELESS; LABEL_TIMELESS]).

(** ** Exceptions *)

Inductive exn : Set :=
  | KeyError
  | ValueError.

Inductive result (A : Type) : Type :=
  | Ok (a : A)
  | Raise (e : exn).

Arguments Ok {A} a.
Arguments Raise {A} e.

(** [d[k]]: subscription of a dict raises [KeyError] on a missing key. *)
Definition getitem {A : Type} (d : gmap FeatureType A) (k : FeatureType)
  : result A :=
  match d !! k with
  | Some a => Ok a
  | None => Raise KeyError
  end.

(** ** Method [ndim] (lines 115-134) *)

(** The dict literal of lines 124-133. *)
Definition ndim_dict : gmap FeatureType Z :=
  list_to_map [(DATA, 4%Z); (MASK, 4%Z); (SCALAR, 2%Z); (LABEL, 2%Z);
               (DATA_TIMELESS, 3%Z); (MASK_TIMELESS, 3%Z);
               (SCALAR_TIMELESS, 1%Z); (LABEL_TIMELESS, 1%Z)].

Definition ndim (self : FeatureType) : result (option Z) :=
  if contains_ndarrays self then
    match getitem ndim_dict self with
    | Ok n => Ok (Some n)
    | Raise e => Raise e
    end
  else Ok None.

(** ** Method [type] (lines 136-145) *)

(** The three builtin classes the method can return. *)
Inductive PyType : Set :=
  | py_list
  | py_object
  | py_dict.

Definition type (self : FeatureType) : PyType :=
  if bool_decide (self = TIMESTAMP) then py_list
  else if bool_decide (self = BBOX) then py_object
  else py_dict.

(** ** Construction by value: [FeatureType(v)]

    The class inherits its call protocol from [enum.Enum]: the argument is
    looked up in the table from values to members that the metaclass fills
    when the class body is run (the first member with a given value owns
    the entry), and a miss raises [ValueError]. *)

Definition value2member_map : gmap string FeatureType :=
  list_to_map ((fun item => (value item, item)) <$> members).

Definition FeatureType_new (v : string) : result FeatureType :=
  match value2member_map !! v with
  | Some item => Ok item
  | None => Raise ValueError
  end.

(** ** The module as a state transformer

    The only data the module holds is the table of names and values that
    the class body builds.  Every entry point is listed below together
    with what it returns; none of the method bodies contains an assignment
    or a mutating call, so each one hands the table on as it received it. *)

(** The left-hand sides of the assignments in the class body. *)
Definition name (item : FeatureType) : string :=
  match item with
  | DATA => "DATA"
  | MASK => "MASK"
  | SCALAR => "SCALAR"
  | LABEL => "LABEL"
  | VECTOR => "VECTOR"
  | DATA_TIMELESS => "DATA_TIMELESS"
  | MASK_TIMELESS => "MASK_TIMELESS"
  | SCALAR_TIMELESS => "SCALAR_TIMELESS"
  | LABEL_TIMELESS => "LABEL_TIMELESS"
  | VECTOR_TIMELESS => "VECTOR_TIMELESS"
  | META_INFO => "META_INFO"
  | BBOX => "BBOX"
  | TIMESTAMP => "TIMESTAMP"
  end.

(** The table of [(name, value)] pairs once the class body has run. *)
Definition class_body : list (string * string) :=
  (fun item => (name item, value item)) <$> members.

Inductive call : Set :=
  | call_has_value (v : string)
  | call_new (v : string)
  | call_is_spatial (self : FeatureType)
  | call_is_time_dependent (self : FeatureType)
  | call_is_discrete (self : FeatureType)
  | call_is_vector (self : FeatureType)
  | call_has_dict (self : FeatureType)
  | call_contains_ndarrays (self : FeatureType)
  | call_ndim (self : FeatureType)
  | call_type (self : FeatureType).

Inductive returned : Set :=
  | ret_bool (b : bool)
  | ret_member (r : result FeatureType)
  | ret_ndim (r : result (option Z))
  | ret_type (t : PyType).

Definition exec (c : call) (tbl : list (string * string))
  : returned * list (string * string) :=
  match c with
  | call_has_value v => (ret_bool (has_value v), tbl)
  | call_new v => (ret_member (FeatureType_new v), tbl)
  | call_is_spatial self => (ret_bool (is_spatial self), tbl)
  | call_is_time_dependent self => (ret_bool (is_time_dependent self), tbl)
  | call_is_discrete self => (ret_bool (is_discrete self), tbl)
  | call_is_vector self => (ret_bool (is_vector self), tbl)
  | call_has_dict self => (ret_bool (has_dict self), tbl)
  | call_contains_ndarrays self => (ret_bool (contains_ndarrays self), tbl)
  | call_ndim self => (ret_ndim (ndim self), tbl)
  | call_type self => (ret_type (type self), tbl)
  end.

(** A program: calls run one after the other, the table threaded through;
    the answers are collected in call order. *)
Fixpoint run (cs : list call) (tbl : list (string * string))
  : list returned * list (string * string) :=
  match cs with
  | [] => ([], tbl)
  | c :: cs' =>
      let '(r, tbl1) := exec c tbl in
      let '(rs, tbl2) := run cs' tbl1 in
      (r :: rs, tbl2)
  end.

(** ** [has_value] on arguments of any class

    The parameter of [has_value] carries no annotation and the body only
    compares it with [==], so the method also accepts what is not a [str].
    The universe below has the classes a caller is likely to pass: [None],
    an [int], a [str] and a member of the enumeration itself. *)




(** The characters the identifiers are written with: [a]-[z] and [_]. *)
Definition is_identifier_char (c : Ascii.ascii) : bool :=
  let n := Ascii.nat_of_ascii c in
  (Nat.leb 97 n && Nat.leb n 122) || Nat.eqb n 95.

(** ** Sanity checks *)

Example is_spatial_DATA : is_spatial DATA = true.
Proof. vm_compute. reflexivity. Qed.

Example has_value_data : has_value "data" = true.
Proof. vm_compute. reflexivity. Qed.

Example has_value_DATA : has_value "DATA" = false.
Proof. vm_compute. reflexivity. Qed.

(** The end-to-end scenario: from the identifier to every property. *)
Example mask_timeless_scenario :
  run [call_new "mask_timeless"; call_is_spatial MASK_TIMELESS;
       call_is_time_dependent MASK_TIMELESS; call_is_discrete MASK_TIMELESS;
       call_is_vector MASK_TIMELESS; call_has_dict MASK_TIMELESS;
       call_contains_ndarrays MASK_TIMELESS; call_ndim MASK_TIMELESS;
       call_type MASK_TIMELESS] class_body =
  ([ret_member (Ok MASK_TIMELESS); ret_bool true; ret_bool false;
    ret_bool true; ret_bool false; ret_bool true; ret_bool true;
    ret_ndim (Ok (Some 3%Z)); ret_type py_dict], class_body).
Proof. vm_compute. reflexivity. Qed.

Example ndim_DATA : ndim DATA = Ok (Some 4%Z).
Proof. vm_compute. reflexivity. Qed.

Example new_mask_timeless : FeatureType_new "mask_timeless" = Ok MASK_TIMELESS.
Proof. vm_compute. reflexivity. Qed.

Example new_foo : FeatureType_new "foo" = Raise ValueError.
Proof. vm_compute. reflexivity. Qed.

Example type_TIMESTAMP : type TIMESTAMP = py_list.
Proof. vm_compute. reflexivity. Qed.

(** ** The methods as tables

    Each set-membership test, evaluated at every member. *)

Ltac by_cases_on self := destruct self; vm_compute; reflexivity.

Lemma is_spatial_table (self : FeatureType) :
  is_spatial self =
  match self with
  | DATA | MASK | VECTOR | DATA_TIMELESS | MASK_TIMELESS | VECTOR_TIMELESS =>
      true
  | SCALAR | LABEL | SCALAR_TIMELESS | LABEL_TIMELESS | META_INFO | BBOX
  | TIMESTAMP => false
  end.
Proof. by_cases_on self. Qed.

Lemma is_time_dependent_table (self : FeatureType) :
  is_time_dependent self =
  match self with
  | DATA | MASK | SCALAR | LABEL | VECTOR => true
  | DATA_TIMELESS | MASK_TIMELESS | SCALAR_TIMELESS | LABEL_TIMELESS
  | VECTOR_TIMELESS | META_INFO | BBOX | TIMESTAMP => false
  end.
Proof. by_cases_on self. Qed.

Lemma is_discrete_table (self : FeatureType) :
  is_discrete self =
  match self with
  | MASK | MASK_TIMELESS | LABEL | LABEL_TIMELESS => true
  | DATA | SCALAR | VECTOR | DATA_TIMELESS | SCALAR_TIMELESS
  | VECTOR_TIMELESS | META_INFO | BBOX | TIMESTAMP => false
  end.
Proof. by_cases_on self. Qed.

Lemma has_dict_table (self : FeatureType) :
  has_dict self =
  match self with
  | TIMESTAMP | BBOX => false
  | DATA | MASK | SCALAR | LABEL | VECTOR | DATA_TIMELESS | MASK_TIMELESS
  | SCALAR_TIMELESS | LABEL_TIMELESS | VECTOR_TIMELESS | META_INFO => true
  end.
Proof. by_cases_on self. Qed.

Lemma contains_ndarrays_table (self : FeatureType) :
  contains_ndarrays self =
  match self with
  | DATA | MASK | SCALAR | LABEL | DATA_TIMELESS | MASK_TIMELESS
  | SCALAR_TIMELESS | LABEL_TIMELESS => true
  | VECTOR | VECTOR_TIMELESS | META_INFO | BBOX | TIMESTAMP => false
  end.
Proof. by_cases_on self. Qed.

(** Membership of a concrete member in a list literal, and its negation. *)
Ltac list_cases :=
  rewrite ?elem_of_cons, ?elem_of_nil; split; intros; try discriminate;
  intuition (try discriminate; try congruence).

(** C5: [is_spatial] is true exactly at the six values DATA, MASK, VECTOR,
    DATA_TIMELESS, MASK_TIMELESS and VECTOR_TIMELESS and false at each of
    the other seven; it is a total function, so the call always returns. *)
Theorem is_spatial_exactly_six (self : FeatureType) :
  (is_spatial self = true ↔
     self ∈ [DATA; MASK; VECTOR; DATA_TIMELESS; MASK_TIMELESS;
             VECTOR_TIMELESS]) ∧
  (is_spatial self = false ↔
     self ∈ [SCALAR; LABEL; SCALAR_TIMELESS; LABEL_TIMELESS; META_INFO;
             BBOX; TIMESTAMP]) ∧
  filter (fun item => is_spatial item = true) members =
    [DATA; MASK; VECTOR; DATA_TIMELESS; MASK_TIMELESS; VECTOR_TIMELESS].
Proof.
  rewrite is_spatial_table.
  split; [|split]; [destruct self; list_cases ..|].
  vm_compute. reflexivity.
Qed.

(** C6: [has_dict] is false exactly at TIMESTAMP and BBOX and true at each
    of the other eleven values. *)
Theorem has_dict_all_but_two (self : FeatureType) :
  (has_dict self = false ↔ self ∈ [TIMESTAMP; BBOX]) ∧
  (has_dict self = true ↔
     self ∈ [DATA; MASK; SCALAR; LABEL; VECTOR; DATA_TIMELESS;
             MASK_TIMELESS; SCALAR_TIMELESS; LABEL_TIMELESS;
             VECTOR_TIMELESS; META_INFO]) ∧
  filter (fun item => has_dict item = false) members = [BBOX; TIMESTAMP].
Proof.
  rewrite has_dict_table.
  split; [|split]; [destruct self; list_cases ..|].
  vm_compute. reflexivity.
Qed.

(** C7: [is_discrete] is true exactly at MASK, MASK_TIMELESS, LABEL and
    LABEL_TIMELESS and false at each of the other nine values. *)
Theorem is_discrete_exactly_four (self : FeatureType) :
  (is_discrete self = true ↔
     self ∈ [MASK; MASK_TIMELESS; LABEL; LABEL_TIMELESS]) ∧
  (is_discrete self = false ↔
     self ∈ [DATA; SCALAR; VECTOR; DATA_TIMELESS; SCALAR_TIMELESS;
             VECTOR_TIMELESS; META_INFO; BBOX; TIMESTAMP]) ∧
  filter (fun item => is_discrete item = true) members =
    [MASK; LABEL; MASK_TIMELESS; LABEL_TIMELESS].
Proof.
  rewrite is_discrete_table.
  split; [|split]; [destruct self; list_cases ..|].
  vm_compute. reflexivity.
Qed.

(** C2: [ndim] returns normally at every value: the rank 4 for DATA and
    MASK, 2 for SCALAR and LABEL, 3 for DATA_TIMELESS and MASK_TIMELESS,
    1 for SCALAR_TIMELESS and LABEL_TIMELESS, and [None] (neither zero nor
    an exception) for VECTOR, VECTOR_TIMELESS, META_INFO, BBOX and
    TIMESTAMP. *)
Theorem ndim_fixed_rank (self : FeatureType) :
  ndim self =
  match self with
  | DATA => Ok (Some 4%Z)
  | MASK => Ok (Some 4%Z)
  | SCALAR => Ok (Some 2%Z)
  | LABEL => Ok (Some 2%Z)
  | DATA_TIMELESS => Ok (Some 3%Z)
  | MASK_TIMELESS => Ok (Some 3%Z)
  | SCALAR_TIMELESS => Ok (Some 1%Z)
  | LABEL_TIMELESS => Ok (Some 1%Z)
  | VECTOR => Ok None
  | VECTOR_TIMELESS => Ok None
  | META_INFO => Ok None
  | BBOX => Ok None
  | TIMESTAMP => Ok None
  end.
Proof. by_cases_on self. Qed.

(** C3: [type] returns [list] exactly at TIMESTAMP, [object] exactly at
    BBOX, and [dict] at each of the other eleven values. *)
Theorem type_container_kind (self : FeatureType) :
  (type self = py_list ↔ self = TIMESTAMP) ∧
  (type self = py_object ↔ self = BBOX) ∧
  (type self = py_dict ↔
     self ∈ [DATA; MASK; SCALAR; LABEL; VECTOR; DATA_TIMELESS;
             MASK_TIMELESS; SCALAR_TIMELESS; LABEL_TIMELESS;
             VECTOR_TIMELESS; META_INFO]).
Proof.
  unfold type.
  split; [|split]; destruct self; cbn; list_cases.
Qed.

(** C9: [ndim] returns a rank (an integer, not [None]) if and only if
    [contains_ndarrays] is true; otherwise it returns [None]. *)
Theorem ndim_defined_iff_contains_ndarrays (self : FeatureType) :
  ((∃ n : Z, ndim self = Ok (Some n)) ↔ contains_ndarrays self = true) ∧
  (ndim self = Ok None ↔ contains_ndarrays self = false).
Proof.
  split; split.
  - intros [n Hn]. unfold ndim in Hn.
    destruct (contains_ndarrays self); [reflexivity | discriminate].
  - intros H. destruct self; vm_compute in H; try discriminate;
      eexists; vm_compute; reflexivity.
  - intros H. destruct self; vm_compute in H; try discriminate;
      vm_compute; reflexivity.
  - intros H. unfold ndim. destruct self; vm_compute in H; try discriminate;
      vm_compute; reflexivity.
Qed.

(** C10: wherever [contains_ndarrays] is true, the rank returned by [ndim]
    is one, plus two when [is_spatial], plus one when [is_time_dependent]. *)
Theorem ndim_decomposition (self : FeatureType) :
  contains_ndarrays self = true →
  ndim self =
    Ok (Some (1 + (if is_spatial self then 2 else 0)
                + (if is_time_dependent self then 1 else 0))%Z).
Proof.
  rewrite contains_ndarrays_table, is_spatial_table, is_time_dependent_table.
  destruct self; intros H; try discriminate H; vm_compute; reflexivity.
Qed.

Lemma ndim_decomposition_witness :
  contains_ndarrays SCALAR = true ∧
  ndim SCALAR =
    Ok (Some (1 + (if is_spatial SCALAR then 2 else 0)
                + (if is_time_dependent SCALAR then 1 else 0))%Z).
Proof.
  split.
  - vm_compute. reflexivity.
  - apply (ndim_decomposition SCALAR). vm_compute. reflexivity.
Defined.

(** ** The identifier vocabulary *)

(** The identifiers, read off the members in definition order. *)
Lemma values_of_members :
  value <$> members =
  ["data"; "mask"; "scalar"; "label"; "vector"; "data_timeless";
   "mask_timeless"; "scalar_timeless"; "label_timeless"; "vector_timeless";
   "meta_info"; "bbox"; "timestamp"].
Proof. reflexivity. Qed.

Lemma members_complete (item : FeatureType) : item ∈ members.
Proof. destruct item; unfold members; set_solver. Qed.

#[local] Instance value_inj : Inj (=) (=) value.
Proof. intros a b H. destruct a, b; first [reflexivity | discriminate H]. Qed.

Lemma has_value_elem_of (v : string) :
  has_value v = true ↔ v ∈ value <$> members.
Proof.
  unfold has_value. rewrite existsb_exists, list_elem_of_fmap.
  split.
  - intros (item & Hin & Heq). apply bool_decide_eq_true in Heq.
    exists item. split; [exact Heq | by apply list_elem_of_In].
  - intros (item & Heq & Hin). exists item.
    split; [by apply list_elem_of_In | by apply bool_decide_eq_true].
Qed.

Lemma value2member_map_keys :
  ((fun item => (value item, item)) <$> members).*1 = value <$> members.
Proof. reflexivity. Qed.

Lemma value2member_map_lookup (item : FeatureType) :
  value2member_map !! value item = Some item.
Proof. destruct item; vm_compute; reflexivity. Qed.

Lemma value2member_map_miss (v : string) :
  value2member_map !! v = None ↔ v ∉ value <$> members.
Proof.
  unfold value2member_map.
  rewrite <- not_elem_of_list_to_map, value2member_map_keys. reflexivity.
Qed.

(** C1: [has_value s] is true if and only if [s] is one of the thirteen
    identifiers; the comparison is exact, so ["DATA"], the empty string and
    proper prefixes or extensions of an identifier give false; the result
    is always a boolean, never an exception. *)
Theorem has_value_iff_reserved (s : string) :
  (has_value s = true ↔
     s ∈ ["data"; "mask"; "scalar"; "label"; "vector"; "data_timeless";
          "mask_timeless"; "scalar_timeless"; "label_timeless";
          "vector_timeless"; "meta_info"; "bbox"; "timestamp"]) ∧
  (has_value s = false ↔
     s ∉ ["data"; "mask"; "scalar"; "label"; "vector"; "data_timeless";
          "mask_timeless"; "scalar_timeless"; "label_timeless";
          "vector_timeless"; "meta_info"; "bbox"; "timestamp"]) ∧
  has_value "DATA" = false ∧ has_value "" = false ∧
  has_value "Data" = false ∧ has_value "dat" = false ∧
  has_value "data_" = false ∧ has_value " data" = false ∧
  has_value "foo" = false.
Proof.
  rewrite <- values_of_members.
  split; [apply has_value_elem_of | split].
  - rewrite <- has_value_elem_of. destruct (has_value s); split; congruence.
  - vm_compute. repeat split; reflexivity.
Qed.

(** C8: [FeatureType(s)] returns a member, the one whose identifier is [s],
    exactly when [s] is one of the thirteen identifiers; for every other
    string it raises [ValueError], and it raises nothing else. *)
Theorem FeatureType_new_iff_reserved (s : string) :
  ((∃ item, FeatureType_new s = Ok item) ↔
     s ∈ ["data"; "mask"; "scalar"; "label"; "vector"; "data_timeless";
          "mask_timeless"; "scalar_timeless"; "label_timeless";
          "vector_timeless"; "meta_info"; "bbox"; "timestamp"]) ∧
  (FeatureType_new s = Raise ValueError ↔
     s ∉ ["data"; "mask"; "scalar"; "label"; "vector"; "data_timeless";
          "mask_timeless"; "scalar_timeless"; "label_timeless";
          "vector_timeless"; "meta_info"; "bbox"; "timestamp"]) ∧
  ((∃ item, FeatureType_new s = Ok item ∧ value item = s) ∨
   FeatureType_new s = Raise ValueError) ∧
  (∀ item, FeatureType_new (value item) = Ok item).
Proof.
  rewrite <- values_of_members.
  assert (Hmiss : FeatureType_new s = Raise ValueError ↔
                  s ∉ value <$> members).
  { rewrite <- value2member_map_miss. unfold FeatureType_new.
    destruct (value2member_map !! s); split; congruence. }
  assert (Hhit : ∀ item, FeatureType_new (value item) = Ok item).
  { intros item. unfold FeatureType_new.
    by rewrite value2member_map_lookup. }
  assert (Hcases : (∃ item, FeatureType_new s = Ok item ∧ value item = s) ∨
                   FeatureType_new s = Raise ValueError).
  { destruct (decide (s ∈ value <$> members)) as [Hin | Hout].
    - left. apply list_elem_of_fmap in Hin as (item & -> & _).
      exists item. split; [apply Hhit | reflexivity].
    - right. by apply Hmiss. }
  split; [|split; [exact Hmiss | split; [exact Hcases | exact Hhit]]].
  split.
  - intros [item Hitem]. destruct Hcases as [(item' & _ & <-) | Hraise].
    + apply list_elem_of_fmap. exists item'. split; [reflexivity|].
      apply members_complete.
    + congruence.
  - intros Hin. apply list_elem_of_fmap in Hin as (item & -> & _).
    exists item. apply Hhit.
Qed.

(** Running calls never touches the table. *)
Lemma exec_table (c : call) (tbl : list (string * string)) :
  (exec c tbl).2 = tbl.
Proof. destruct c; reflexivity. Qed.

Lemma run_table (cs : list call) (tbl : list (string * string)) :
  (run cs tbl).2 = tbl.
Proof.
  revert tbl. induction cs as [|c cs IH]; intros tbl; [reflexivity|].
  cbn [run]. pose proof (exec_table c tbl) as Hc.
  destruct (exec c tbl) as [r tbl1]. cbn in Hc. subst tbl1.
  specialize (IH tbl). destruct (run cs tbl) as [rs tbl2].
  cbn in IH. subst tbl2. reflexivity.
Qed.

(** C4: the enumeration has exactly thirteen members; their identifiers
    are pairwise distinct and are, in definition order, the thirteen fixed
    lowercase strings; and whatever sequence of operations of the module
    is run, the table of names and identifiers is afterwards what the
    class body made it. *)
Theorem FeatureType_vocabulary :
  length members = 13 ∧ NoDup members ∧ (∀ item, item ∈ members) ∧
  value <$> members =
    ["data"; "mask"; "scalar"; "label"; "vector"; "data_timeless";
     "mask_timeless"; "scalar_timeless"; "label_timeless";
     "vector_timeless"; "meta_info"; "bbox"; "timestamp"] ∧
  NoDup (value <$> members) ∧
  (∀ a b, value a = value b ↔ a = b) ∧
  (∀ cs, (run cs class_body).2 = class_body) ∧
  class_body.*2 = value <$> members.
Proof.
  assert (Hnodup : NoDup members).
  { apply (bool_decide_unpack _). vm_compute. exact I. }
  repeat split.
  - exact Hnodup.
  - exact members_complete.
  - apply (NoDup_fmap_2 value). exact Hnodup.
  - apply value_inj.
  - intros ->. reflexivity.
  - intros cs. apply run_table.
Qed.

(** * Further properties of the classification *)

Lemma is_vector_table (self : FeatureType) :
  is_vector self =
  match self with
  | VECTOR | VECTOR_TIMELESS => true
  | DATA | MASK | SCALAR | LABEL | DATA_TIMELESS | MASK_TIMELESS
  | SCALAR_TIMELESS | LABEL_TIMELESS | META_INFO | BBOX | TIMESTAMP => false
  end.
Proof. by_cases_on self. Qed.

Lemma type_table (self : FeatureType) :
  type self =
  match self with
  | TIMESTAMP => py_list
  | BBOX => py_object
  | DATA | MASK | SCALAR | LABEL | VECTOR | DATA_TIMELESS | MASK_TIMELESS
  | SCALAR_TIMELESS | LABEL_TIMELESS | VECTOR_TIMELESS | META_INFO => py_dict
  end.
Proof. by_cases_on self. Qed.

Lemma ndim_cases (self : FeatureType) :
  ndim self =
  match self with
  | DATA | MASK => Ok (Some 4%Z)
  | SCALAR | LABEL => Ok (Some 2%Z)
  | DATA_TIMELESS | MASK_TIMELESS => Ok (Some 3%Z)
  | SCALAR_TIMELESS | LABEL_TIMELESS => Ok (Some 1%Z)
  | VECTOR | VECTOR_TIMELESS | META_INFO | BBOX | TIMESTAMP => Ok None
  end.
Proof. by_cases_on self. Qed.

(** Rewrite every method call into its table. *)
Ltac to_tables :=
  rewrite ?is_spatial_table, ?is_time_dependent_table, ?is_discrete_table,
    ?is_vector_table, ?has_dict_table, ?contains_ndarrays_table,
    ?type_table, ?ndim_cases.

(** X1: [is_time_dependent] is true exactly at DATA, MASK, SCALAR, LABEL
    and VECTOR and false at each of the other eight values; TIMESTAMP in
    particular is not time dependent. *)
Theorem is_time_dependent_exactly_five (self : FeatureType) :
  (is_time_dependent self = true ↔
     self ∈ [DATA; MASK; SCALAR; LABEL; VECTOR]) ∧
  (is_time_dependent self = false ↔
     self ∈ [DATA_TIMELESS; MASK_TIMELESS; SCALAR_TIMELESS; LABEL_TIMELESS;
             VECTOR_TIMELESS; META_INFO; BBOX; TIMESTAMP]) ∧
  filter (fun item => is_time_dependent item = true) members =
    [DATA; MASK; SCALAR; LABEL; VECTOR].
Proof.
  rewrite is_time_dependent_table.
  split; [|split]; [destruct self; list_cases ..|].
  vm_compute. reflexivity.
Qed.

(** X2: [is_vector] is true exactly at VECTOR and VECTOR_TIMELESS and
    false at each of the other eleven values. *)
Theorem is_vector_exactly_two (self : FeatureType) :
  (is_vector self = true ↔ self ∈ [VECTOR; VECTOR_TIMELESS]) ∧
  (is_vector self = false ↔
     self ∈ [DATA; MASK; SCALAR; LABEL; DATA_TIMELESS; MASK_TIMELESS;
             SCALAR_TIMELESS; LABEL_TIMELESS; META_INFO; BBOX; TIMESTAMP]) ∧
  filter (fun item => is_vector item = true) members =
    [VECTOR; VECTOR_TIMELESS].
Proof.
  rewrite is_vector_table.
  split; [|split]; [destruct self; list_cases ..|].
  vm_compute. reflexivity.
Qed.

(** X3: [contains_ndarrays] is true exactly at the eight values DATA, MASK,
    SCALAR, LABEL and their timeless counterparts, and false at VECTOR,
    VECTOR_TIMELESS, META_INFO, BBOX and TIMESTAMP. *)
Theorem contains_ndarrays_exactly_eight (self : FeatureType) :
  (contains_ndarrays self = true ↔
     self ∈ [DATA; MASK; SCALAR; LABEL; DATA_TIMELESS; MASK_TIMELESS;
             SCALAR_TIMELESS; LABEL_TIMELESS]) ∧
  (contains_ndarrays self = false ↔
     self ∈ [VECTOR; VECTOR_TIMELESS; META_INFO; BBOX; TIMESTAMP]) ∧
  filter (fun item => contains_ndarrays item = true) members =
    [DATA; MASK; SCALAR; LABEL; DATA_TIMELESS; MASK_TIMELESS;
     SCALAR_TIMELESS; LABEL_TIMELESS].
Proof.
  rewrite contains_ndarrays_table.
  split; [|split]; [destruct self; list_cases ..|].
  vm_compute. reflexivity.
Qed.

(** X4: [has_dict] and [type] agree: a value stores a dictionary exactly
    when its container class is [dict]. *)
Theorem has_dict_iff_type_dict (self : FeatureType) :
  has_dict self = true ↔ type self = py_dict.
Proof. to_tables. destruct self; split; intros H; congruence. Qed.

(** X5: the values that store a dictionary split three ways: those holding
    arrays, those holding vector shapes, and META_INFO; no value is in two
    of the three groups. *)
Theorem has_dict_three_kinds (self : FeatureType) :
  (has_dict self = true ↔
     contains_ndarrays self = true ∨ is_vector self = true ∨
     self = META_INFO) ∧
  ¬ (contains_ndarrays self = true ∧ is_vector self = true) ∧
  ¬ (contains_ndarrays self = true ∧ self = META_INFO) ∧
  ¬ (is_vector self = true ∧ self = META_INFO).
Proof.
  to_tables.
  destruct self; intuition congruence.
Qed.

(** X6: a value with discrete (integer) data always holds arrays, so it
    has a rank and stores a dictionary. *)
Theorem is_discrete_contains_ndarrays (self : FeatureType) :
  is_discrete self = true →
  contains_ndarrays self = true ∧ has_dict self = true ∧
  is_vector self = false ∧ ∃ n : Z, ndim self = Ok (Some n).
Proof.
  to_tables. destruct self; intros H; try discriminate H;
    repeat split; eexists; reflexivity.
Qed.

Lemma is_discrete_contains_ndarrays_witness :
  is_discrete LABEL_TIMELESS = true ∧
  contains_ndarrays LABEL_TIMELESS = true ∧ has_dict LABEL_TIMELESS = true ∧
  is_vector LABEL_TIMELESS = false ∧
  ∃ n : Z, ndim LABEL_TIMELESS = Ok (Some n).
Proof.
  split.
  - vm_compute. reflexivity.
  - apply (is_discrete_contains_ndarrays LABEL_TIMELESS).
    vm_compute. reflexivity.
Defined.

(** X7: a vector value is spatial and stores a dictionary, but holds no
    arrays: it is not discrete and [ndim] returns [None] for it. *)
Theorem is_vector_spatial_without_rank (self : FeatureType) :
  is_vector self = true →
  is_spatial self = true ∧ has_dict self = true ∧
  contains_ndarrays self = false ∧ is_discrete self = false ∧
  ndim self = Ok None.
Proof.
  to_tables. destruct self; intros H; try discriminate H;
    repeat split.
Qed.

Lemma is_vector_spatial_without_rank_witness :
  is_vector VECTOR = true ∧
  is_spatial VECTOR = true ∧ has_dict VECTOR = true ∧
  contains_ndarrays VECTOR = false ∧ is_discrete VECTOR = false ∧
  ndim VECTOR = Ok None.
Proof.
  split.
  - vm_compute. reflexivity.
  - apply (is_vector_spatial_without_rank VECTOR). vm_compute. reflexivity.
Defined.

(** X8: a value that stores no dictionary (BBOX, TIMESTAMP) belongs to none
    of the other classes: it is not spatial, not time dependent, not
    discrete, not a vector, holds no arrays and has no rank. *)
Theorem no_dict_no_class (self : FeatureType) :
  has_dict self = false →
  is_spatial self = false ∧ is_time_dependent self = false ∧
  is_discrete self = false ∧ is_vector self = false ∧
  contains_ndarrays self = false ∧ ndim self = Ok None.
Proof.
  to_tables. destruct self; intros H; try discriminate H;
    repeat split.
Qed.

Lemma no_dict_no_class_witness :
  has_dict TIMESTAMP = false ∧
  is_spatial TIMESTAMP = false ∧ is_time_dependent TIMESTAMP = false ∧
  is_discrete TIMESTAMP = false ∧ is_vector TIMESTAMP = false ∧
  contains_ndarrays TIMESTAMP = false ∧ ndim TIMESTAMP = Ok None.
Proof.
  split.
  - vm_compute. reflexivity.
  - apply (no_dict_no_class TIMESTAMP). vm_compute. reflexivity.
Defined.

(** X9: the answers of [is_spatial], [is_time_dependent], [is_discrete],
    [contains_ndarrays] and [type] together identify the value: two values
    on which these five methods agree are the same value. *)
Theorem classification_identifies_value (a b : FeatureType) :
  is_spatial a = is_spatial b →
  is_time_dependent a = is_time_dependent b →
  is_discrete a = is_discrete b →
  contains_ndarrays a = contains_ndarrays b →
  type a = type b →
  a = b.
Proof.
  to_tables.
  destruct a, b; intros Hs Ht Hd Hn Hty;
    first [reflexivity | discriminate Hs | discriminate Ht | discriminate Hd
          | discriminate Hn | discriminate Hty].
Qed.

Lemma classification_identifies_value_witness :
  is_spatial MASK = is_spatial MASK ∧ type MASK = type MASK ∧ MASK = MASK.
Proof.
  split; [reflexivity | split; [reflexivity |]].
  apply (classification_identifies_value MASK MASK); reflexivity.
Defined.

(** X10: the eight array-holding values are the eight combinations of
    spatial or not, time dependent or not, discrete or not: for every
    choice of the three answers there is exactly one array-holding value
    giving them. *)
Theorem array_values_span_the_axes (s t d : bool) :
  ∃ self,
    (contains_ndarrays self = true ∧ is_spatial self = s ∧
     is_time_dependent self = t ∧ is_discrete self = d) ∧
    ∀ other,
      contains_ndarrays other = true ∧ is_spatial other = s ∧
      is_time_dependent other = t ∧ is_discrete other = d →
      other = self.
Proof.
  exists (match s, t, d with
          | true, true, false => DATA
          | true, true, true => MASK
          | false, true, false => SCALAR
          | false, true, true => LABEL
          | true, false, false => DATA_TIMELESS
          | true, false, true => MASK_TIMELESS
          | false, false, false => SCALAR_TIMELESS
          | false, false, true => LABEL_TIMELESS
          end).
  split.
  - to_tables. destruct s, t, d; repeat split.
  - intros other. to_tables.
    destruct other; intros (Hn & <- & <- & <-);
      first [reflexivity | discriminate Hn].
Qed.

(** * Further properties of the identifiers *)

(** X11: [has_value] is the exact guard of construction by value:
    [FeatureType(s)] returns a value when [has_value(s)] is true and raises
    [ValueError] when it is false. *)
Theorem has_value_guards_construction (s : string) :
  (has_value s = true ↔ ∃ item, FeatureType_new s = Ok item) ∧
  (has_value s = false ↔ FeatureType_new s = Raise ValueError).
Proof.
  unfold FeatureType_new. split.
  - rewrite has_value_elem_of. split.
    + intros Hin. apply list_elem_of_fmap in Hin as (item & -> & _).
      exists item. by rewrite value2member_map_lookup.
    + intros [item Hitem].
      destruct (decide (s ∈ value <$> members)) as [Hin | Hout];
        [exact Hin|].
      apply value2member_map_miss in Hout. rewrite Hout in Hitem.
      discriminate Hitem.
  - rewrite <- not_true_iff_false, has_value_elem_of,
      <- value2member_map_miss.
    destruct (value2member_map !! s); split; congruence.
Qed.


(** X13: every string accepted by [has_value] is written with the letters
    [a]-[z] and the underscore only and has between 4 and 15 characters, so
    a string with a capital, a digit, a blank or any other character is
    rejected whatever the rest of it is. *)
Theorem has_value_lowercase_only (s : string) :
  has_value s = true →
  forallb is_identifier_char (String.list_ascii_of_string s) = true ∧
  (4 ≤ String.length s ≤ 15)%nat.
Proof.
  intros H. apply has_value_elem_of, list_elem_of_fmap in H as (item & -> & _).
  destruct item; (split; [vm_compute; reflexivity | cbn; lia]).
Qed.

Lemma has_value_lowercase_only_witness :
  has_value "meta_info" = true ∧
  forallb is_identifier_char (String.list_ascii_of_string "meta_info") = true ∧
  (4 ≤ String.length "meta_info" ≤ 15)%nat.
Proof.
  split.
  - vm_compute. reflexivity.
  - apply (has_value_lowercase_only "meta_info"). vm_compute. reflexivity.
Defined.

(** X14: appending [_timeless] to the identifier of a value gives the
    identifier of a value exactly when the first one is time dependent. *)
Theorem timeless_identifier_iff_time_dependent (self : FeatureType) :
  is_time_dependent self = true ↔
  ∃ t, FeatureType_new (value self +:+ "_timeless") = Ok t.
Proof.
  rewrite is_time_dependent_table. split.
  - intros H. destruct self; try discriminate H;
      eexists; vm_compute; reflexivity.
  - intros [t Ht]. destruct self; vm_compute in Ht;
      first [reflexivity | discriminate Ht].
Qed.

(** X15: the value whose identifier is that of [self] followed by
    [_timeless] is not time dependent, answers [is_spatial], [is_discrete],
    [is_vector], [contains_ndarrays], [has_dict] and [type] as [self] does,
    and when [self] has a rank its rank is one less. *)
Theorem timeless_counterpart (self t : FeatureType) :
  FeatureType_new (value self +:+ "_timeless") = Ok t →
  is_time_dependent t = false ∧
  is_spatial t = is_spatial self ∧ is_discrete t = is_discrete self ∧
  is_vector t = is_vector self ∧
  contains_ndarrays t = contains_ndarrays self ∧
  has_dict t = has_dict self ∧ type t = type self ∧
  ndim t =
    match ndim self with
    | Ok (Some n) => Ok (Some (n - 1)%Z)
    | r => r
    end.
Proof.
  intros H. to_tables.
  destruct self; vm_compute in H; try discriminate H;
    injection H as <-; repeat split.
Qed.

Lemma timeless_counterpart_witness :
  FeatureType_new (value MASK +:+ "_timeless") = Ok MASK_TIMELESS ∧
  is_time_dependent MASK_TIMELESS = false ∧
  is_spatial MASK_TIMELESS = is_spatial MASK ∧
  is_discrete MASK_TIMELESS = is_discrete MASK ∧
  is_vector MASK_TIMELESS = is_vector MASK ∧
  contains_ndarrays MASK_TIMELESS = contains_ndarrays MASK ∧
  has_dict MASK_TIMELESS = has_dict MASK ∧
  type MASK_TIMELESS = type MASK ∧
  ndim MASK_TIMELESS =
    match ndim MASK with
    | Ok (Some n) => Ok (Some (n - 1)%Z)
    | r => r
    end.
Proof.
  split.
  - vm_compute. reflexivity.
  - apply (timeless_counterpart MASK MASK_TIMELESS). vm_compute. reflexivity.
Defined.

(** * Further properties of [ndim] *)

(** X16: the keys of the dictionary of ranks are the values for which
    [contains_ndarrays] is true: subscripting it succeeds for them and
    raises [KeyError] for every other value, which the test in [ndim]
    keeps away from the dictionary. *)
Theorem ndim_dict_keys (self : FeatureType) :
  ((∃ n, getitem ndim_dict self = Ok n) ↔ contains_ndarrays self = true) ∧
  (getitem ndim_dict self = Raise KeyError ↔
     contains_ndarrays self = false).
Proof.
  rewrite contains_ndarrays_table.
  destruct self; vm_compute; (split; split);
    first [ intros [n Hn]; congruence | intros; congruence
          | intros; eexists; reflexivity ].
Qed.

(** X17: a rank returned by [ndim] lies between 1 and 4. *)
Theorem ndim_between_1_and_4 (self : FeatureType) (n : Z) :
  ndim self = Ok (Some n) → (1 ≤ n ≤ 4)%Z.
Proof.
  rewrite ndim_cases.
  destruct self; intros H; try discriminate H;
    injection H as <-; lia.
Qed.

Lemma ndim_between_1_and_4_witness :
  ndim DATA_TIMELESS = Ok (Some 3%Z) ∧ (1 ≤ 3 ≤ 4)%Z.
Proof.
  split.
  - vm_compute. reflexivity.
  - apply (ndim_between_1_and_4 DATA_TIMELESS 3). vm_compute. reflexivity.
Defined.
